(** * Positioners: homogeneous transforms and axis-angle rotations

    Shallow embedding of [sympy_notebooks/Positioners.ipynb] and of the
    positioner tables of [grewgg/data/fable.yml].

    The notebook works with sympy's exact symbolic algebra: its symbols
    range over a commutative field, and [sympy.cos], [sympy.sin] and
    [sympy.pi] are the real functions and constant.  A symbol is modelled
    as a real number of the Standard Library, a [sympy.Matrix] of fixed
    shape as a record of its entries.

    The repository has no code that reads the positioner lists: motor-value
    resolution and the composition of a stack follow the specification and
    are marked as such, built on the notebook's [make_mat4] and
    [axis_angle_rotation]. *)

From Stdlib Require Import Reals Lra RNsatz List String.
From stdpp Require Import base gmap strings.
Import ListNotations.

Local Open Scope R_scope.

(** ** Data model *)

(** [sympy.Matrix([x, y, z])]: a column of three entries. *)
Record vec3 : Type := V3 { c0 : R; c1 : R; c2 : R }.

(** [sympy.Matrix([x, y, z, w])]: an augmented vector. *)
Record vec4 : Type := V4 { h0 : R; h1 : R; h2 : R; h3 : R }.

(** A 3x3 [sympy.Matrix], entry [U[i,j]] is field [uij]. *)
Record mat3 : Type := M3 {
  u00 : R; u01 : R; u02 : R;
  u10 : R; u11 : R; u12 : R;
  u20 : R; u21 : R; u22 : R }.

(** A 4x4 [sympy.Matrix], given by its four rows. *)
Record mat4 : Type := M4 { row0 : vec4; row1 : vec4; row2 : vec4; row3 : vec4 }.

Module Vec.

(** [a + b] on column matrices. *)
Definition add (a b : vec3) : vec3 :=
  V3 (c0 a + c0 b) (c1 a + c1 b) (c2 a + c2 b).

(** [a - b] on column matrices. *)
Definition sub (a b : vec3) : vec3 :=
  V3 (c0 a - c0 b) (c1 a - c1 b) (c2 a - c2 b).

(** [k * a], a scalar times a column matrix. *)
Definition scale (k : R) (a : vec3) : vec3 :=
  V3 (k * c0 a) (k * c1 a) (k * c2 a).

(** [a.dot(b)]. *)
Definition dot (a b : vec3) : R :=
  c0 a * c0 b + c1 a * c1 b + c2 a * c2 b.

(** [a.cross(b)]. *)
Definition cross (a b : vec3) : vec3 :=
  V3 (c1 a * c2 b - c2 a * c1 b)
     (c2 a * c0 b - c0 a * c2 b)
     (c0 a * c1 b - c1 a * c0 b).

Definition zero : vec3 := V3 0 0 0.

Definition opp (a : vec3) : vec3 := V3 (- c0 a) (- c1 a) (- c2 a).

End Vec.

Declare Scope vec_scope.
Delimit Scope vec_scope with vec.
Bind Scope vec_scope with vec3.
Infix "+" := Vec.add : vec_scope.
Infix "-" := Vec.sub : vec_scope.
Infix ".*" := Vec.scale (at level 40, left associativity) : vec_scope.
Infix "×" := Vec.cross (at level 38, left associativity) : vec_scope.
Infix "∙" := Vec.dot (at level 38, left associativity).

(** ** The rotation formulas of the notebook *)

(** Cell 12:
    [vrot1 = cosOmega*v + sinOmega*(v.cross(a)) + (1-cosOmega)*(a.dot(v))*a]. *)
Definition vrot1 (a v : vec3) (Omega : R) : vec3 :=
  let cosOmega := cos Omega in
  let sinOmega := sin Omega in
  (cosOmega .* v + sinOmega .* (v × a) + ((1 - cosOmega) * (a ∙ v)) .* a)%vec.

(** Cell 12:
    [vrot2 = sinOmega*v.cross(a) + cosOmega*( v - (a.dot(v))*a) + a.dot(v)*a]. *)
Definition vrot2 (a v : vec3) (Omega : R) : vec3 :=
  let cosOmega := cos Omega in
  let sinOmega := sin Omega in
  (sinOmega .* (v × a) + cosOmega .* (v - (a ∙ v) .* a) + (a ∙ v) .* a)%vec.

(** Cell 14:
    [return cosa*vec + sina*(axis.cross(vec)) + (1-cosa)*(axis.dot(vec))*axis]. *)
Definition axis_angle_rotation (vec axis : vec3) (angle : R) : vec3 :=
  let cosa := cos angle in
  let sina := sin angle in
  (cosa .* vec + sina .* (axis × vec) + ((1 - cosa) * (axis ∙ vec)) .* axis)%vec.

(** Cell 16: the three basis vectors. *)
Definition X : vec3 := V3 1 0 0.
Definition Y : vec3 := V3 0 1 0.
Definition Z : vec3 := V3 0 0 1.

(** ** Homogeneous transforms *)

(** Cell 6: [make_mat4(U,t)]. *)
Definition make_mat4 (U : mat3) (t : vec3) : mat4 :=
  M4 (V4 (u00 U) (u01 U) (u02 U) (c0 t))
     (V4 (u10 U) (u11 U) (u12 U) (c1 t))
     (V4 (u20 U) (u21 U) (u22 U) (c2 t))
     (V4 0 0 0 1).

Module Mat.

(** One entry of a matrix-vector product: a row times a column. *)
Definition row_col (r x : vec4) : R :=
  h0 r * h0 x + h1 r * h1 x + h2 r * h2 x + h3 r * h3 x.

(** [M * x] for a 4x4 matrix and a 4x1 column (cells 8 and 9). *)
Definition mul4v (M : mat4) (x : vec4) : vec4 :=
  V4 (row_col (row0 M) x) (row_col (row1 M) x)
     (row_col (row2 M) x) (row_col (row3 M) x).

(** [U * x] for a 3x3 matrix and a 3x1 column. *)
Definition mul3v (U : mat3) (x : vec3) : vec3 :=
  V3 (u00 U * c0 x + u01 U * c1 x + u02 U * c2 x)
     (u10 U * c0 x + u11 U * c1 x + u12 U * c2 x)
     (u20 U * c0 x + u21 U * c1 x + u22 U * c2 x).

(** [[x, w]]: a 3-vector with a trailing homogeneous component. *)
Definition augment (x : vec3) (w : R) : vec4 := V4 (c0 x) (c1 x) (c2 x) w.

(** The columns of a 4x4 matrix. *)
Definition col0 (M : mat4) : vec4 :=
  V4 (h0 (row0 M)) (h0 (row1 M)) (h0 (row2 M)) (h0 (row3 M)).
Definition col1 (M : mat4) : vec4 :=
  V4 (h1 (row0 M)) (h1 (row1 M)) (h1 (row2 M)) (h1 (row3 M)).
Definition col2 (M : mat4) : vec4 :=
  V4 (h2 (row0 M)) (h2 (row1 M)) (h2 (row2 M)) (h2 (row3 M)).
Definition col3 (M : mat4) : vec4 :=
  V4 (h3 (row0 M)) (h3 (row1 M)) (h3 (row2 M)) (h3 (row3 M)).

(** [A * B] for two 4x4 matrices. *)
Definition mul4 (A B : mat4) : mat4 :=
  let row r :=
    V4 (row_col r (col0 B)) (row_col r (col1 B))
       (row_col r (col2 B)) (row_col r (col3 B)) in
  M4 (row (row0 A)) (row (row1 A)) (row (row2 A)) (row (row3 A)).

(** [sympy.eye(3)] and [sympy.eye(4)]. *)
Definition eye3 : mat3 := M3 1 0 0  0 1 0  0 0 1.
Definition eye4 : mat4 :=
  M4 (V4 1 0 0 0) (V4 0 1 0 0) (V4 0 0 1 0) (V4 0 0 0 1).

(** [U.T]. *)
Definition transpose (U : mat3) : mat3 :=
  M3 (u00 U) (u10 U) (u20 U)
     (u01 U) (u11 U) (u21 U)
     (u02 U) (u12 U) (u22 U).

(** [A * B] for two 3x3 matrices. *)
Definition mul3 (A B : mat3) : mat3 :=
  M3 (u00 A * u00 B + u01 A * u10 B + u02 A * u20 B)
     (u00 A * u01 B + u01 A * u11 B + u02 A * u21 B)
     (u00 A * u02 B + u01 A * u12 B + u02 A * u22 B)
     (u10 A * u00 B + u11 A * u10 B + u12 A * u20 B)
     (u10 A * u01 B + u11 A * u11 B + u12 A * u21 B)
     (u10 A * u02 B + u11 A * u12 B + u12 A * u22 B)
     (u20 A * u00 B + u21 A * u10 B + u22 A * u20 B)
     (u20 A * u01 B + u21 A * u11 B + u22 A * u21 B)
     (u20 A * u02 B + u21 A * u12 B + u22 A * u22 B).

(** [U.det()], expanded along the first row. *)
Definition det (U : mat3) : R :=
  u00 U * (u11 U * u22 U - u12 U * u21 U)
  - u01 U * (u10 U * u22 U - u12 U * u20 U)
  + u02 U * (u10 U * u21 U - u11 U * u20 U).

(** The 3x3 matrix whose columns are the three given vectors. *)
Definition of_columns (p q r : vec3) : mat3 :=
  M3 (c0 p) (c0 q) (c0 r)
     (c1 p) (c1 q) (c1 r)
     (c2 p) (c2 q) (c2 r).

End Mat.

(** ** Matrix form of the rotation *)

(** Modelled from the spec: the companion operation of section 4.1 that
    gives the 3x3 matrix form of [R(a,theta)] by applying the formula to
    each basis vector.  The notebook announces it (cell 19, "Now we convert
    the axis angle to a rotation matrix...") and its cell 20 is empty.  The
    images of [X], [Y] and [Z] under [axis_angle_rotation] are the columns. *)
Definition rotation_matrix (axis : vec3) (angle : R) : mat3 :=
  Mat.of_columns (axis_angle_rotation X axis angle)
                 (axis_angle_rotation Y axis angle)
                 (axis_angle_rotation Z axis angle).

(** ** Axes, motor values and positioner stacks *)

(** The kinds of axis of [fable.yml]: [type : translation], [rotation] and
    [scale] come with an [axis] vector, [type : positioner] with a literal
    [mat4] given here by its blocks [U] and [t]. *)
Inductive AxisKind : Type :=
  | translation (axis : vec3)
  | rotation (axis : vec3)
  | scale (axis : vec3)
  | positioner (U : mat3) (t : vec3).

(** One record of a positioner list of [fable.yml]; [pos] is optional. *)
Record Axis : Type := mkAxis {
  name : string;
  kind : AxisKind;
  pos : option R }.

(** Modelled from the spec: the error taxonomy of section 7.  The notebook
    raises no error of its own. *)
Inductive error : Type :=
  | ConfigurationError
  | DegenerateAxis
  | MissingMotorValue (axis_name : string)
  | NoIntersection.

(** A computation that fails with an [error] or returns a value. *)
Definition result (A : Type) : Type := (error + A)%type.

Definition ok {A : Type} (a : A) : result A := inr a.
Definition fail {A : Type} (e : error) : result A := inl e.

Definition bind {A B : Type} (m : result A) (f : A -> result B) : result B :=
  match m with
  | inl e => inl e
  | inr a => f a
  end.

Notation "'let!' x ':=' m 'in' k" := (bind m (fun x => k))
  (at level 10, x name, m at level 100, k at level 200).

(** Run [f] over a list from left to right and stop at the first failure. *)
Fixpoint traverse {A B : Type} (f : A -> result B) (l : list A)
  : result (list B) :=
  match l with
  | [] => ok []
  | a :: l' => let! b := f a in let! bs := traverse f l' in ok (b :: bs)
  end.

(** [fable.yml], [Positioners: FF_Detector_Mount]. *)
Definition ffdtx1 : Axis := mkAxis "ffdtx1" (translation (V3 1 0 0)) (Some 20).
Definition ffdtz1 : Axis := mkAxis "ffdtz1" (translation (V3 0 0 1)) None.
Definition ffdtilt : Axis := mkAxis "ffdtilt" (rotation (V3 0 1 0)) None.
Definition FF_Detector_Mount : list Axis := [ffdtx1; ffdtz1; ffdtilt].

(** Modelled from the spec: the resolution of an axis's motor value
    (section 3, MotorValue): the value supplied for the axis's name, else
    the configured [pos], else the failure MissingMotorValue that names the
    axis.  No code of the repository reads the positioner lists. *)
Definition resolve_motor_value (values : gmap string R) (ax : Axis) : result R :=
  match values !! name ax with
  | Some v => ok v
  | None =>
      match pos ax with
      | Some p => ok p
      | None => fail (MissingMotorValue (name ax))
      end
  end.

(** Modelled from the spec: the length [|a|] of section 4.1. *)
Definition norm (a : vec3) : R := sqrt (a ∙ a).

(** Modelled from the spec: the normalisation of a rotation axis
    (section 4.1, edge cases), which fails with DegenerateAxis when the
    length is zero.  The notebook has no such step. *)
Definition normalize (a : vec3) : result vec3 :=
  if Req_dec_T (norm a) 0 then fail DegenerateAxis
  else ok (/ norm a .* a)%vec.

(** Modelled from the spec: the linear part of a scale axis (section 4.2):
    the identity, except that the diagonal entry selected by a non-zero
    component of [axis] is the motor value. *)
Definition scale_matrix (axis : vec3) (value : R) : mat3 :=
  let entry (component : R) : R :=
    if Req_dec_T component 0 then 1 else value in
  M3 (entry (c0 axis)) 0 0
     0 (entry (c1 axis)) 0
     0 0 (entry (c2 axis)).

(** Modelled from the spec: AxisTransform (section 4.2), the homogeneous
    transform of one axis at a resolved motor value, assembled with the
    notebook's [make_mat4]. *)
Definition axis_transform (ax : Axis) (value : R) : result mat4 :=
  match kind ax with
  | translation axis => ok (make_mat4 Mat.eye3 (value .* axis)%vec)
  | rotation axis =>
      let! a := normalize axis in
      ok (make_mat4 (rotation_matrix a value) Vec.zero)
  | scale axis => ok (make_mat4 (scale_matrix axis value) Vec.zero)
  | positioner U t => ok (make_mat4 U t)
  end.

(** Modelled from the spec: PositionerStack (section 4.3).  Every axis's
    motor value is resolved, each axis is turned into its transform, and the
    transforms are multiplied in the declared order,
    [T = T_1 * T_2 * ... * T_n]. *)
Definition compose_stack (stack : list Axis) (values : gmap string R)
  : result mat4 :=
  let! resolved := traverse (resolve_motor_value values) stack in
  let! transforms :=
    traverse (fun av => axis_transform (fst av) (snd av))
             (combine stack resolved) in
  ok (fold_right Mat.mul4 Mat.eye4 transforms).

(** Modelled from the spec: AugmentedVectorMapper (section 4.4) on a
    composed stack: the composed transform times the augmented vector. *)
Definition apply_stack (stack : list Axis) (values : gmap string R) (x : vec4)
  : result vec4 :=
  let! T := compose_stack stack values in
  ok (Mat.mul4v T x).



(** ** Proof support *)

Lemma vec3_eq (a b : vec3) :
  c0 a = c0 b -> c1 a = c1 b -> c2 a = c2 b -> a = b.
Proof. destruct a, b; simpl; intros -> -> ->; reflexivity. Qed.

Lemma vec4_eq (a b : vec4) :
  h0 a = h0 b -> h1 a = h1 b -> h2 a = h2 b -> h3 a = h3 b -> a = b.
Proof. destruct a, b; simpl; intros -> -> -> ->; reflexivity. Qed.

Lemma mat3_eq (A B : mat3) :
  u00 A = u00 B -> u01 A = u01 B -> u02 A = u02 B ->
  u10 A = u10 B -> u11 A = u11 B -> u12 A = u12 B ->
  u20 A = u20 B -> u21 A = u21 B -> u22 A = u22 B -> A = B.
Proof.
  destruct A, B; simpl; intros -> -> -> -> -> -> -> -> ->; reflexivity.
Qed.

(** Unfold the vector and matrix operations down to real arithmetic. *)
Ltac unfold_algebra :=
  cbv [vrot1 vrot2 axis_angle_rotation rotation_matrix make_mat4 X Y Z
       Vec.add Vec.sub Vec.scale Vec.dot Vec.cross Vec.opp Vec.zero
       Mat.row_col Mat.mul4v Mat.mul3v Mat.augment Mat.transpose Mat.mul3
       Mat.det Mat.of_columns Mat.eye3
       c0 c1 c2 h0 h1 h2 h3 row0 row1 row2 row3
       u00 u01 u02 u10 u11 u12 u20 u21 u22].

(** Reduce an equation between vectors or matrices to its entries. *)
Ltac by_components :=
  first [apply vec3_eq | apply vec4_eq | apply mat3_eq]; unfold_algebra.

Lemma Y_neq_opp_Y : Y <> Vec.opp Y.
Proof. intros H; apply (f_equal c1) in H; simpl in H; lra. Qed.

(** ** The two written forms of the formula *)

(** The assertion of cell 12: the two forms written with [v.cross(a)] are
    the same vector. *)
Lemma vrot1_vrot2 (a v : vec3) (Omega : R) : vrot1 a v Omega = vrot2 a v Omega.
Proof. by_components; ring. Qed.

(** C1, as stated, fails: about [Z] by a quarter turn the direct form sends
    [X] to [Y], the rearranged form written with [v × a] sends it to [-Y]. *)
Lemma rodrigues_forms_differ :
  axis_angle_rotation X Z (PI / 2) = Y /\
  vrot2 Z X (PI / 2) = Vec.opp Y /\
  axis_angle_rotation X Z (PI / 2) <> vrot2 Z X (PI / 2).
Proof.
  assert (H1 : axis_angle_rotation X Z (PI / 2) = Y).
  { by_components; rewrite cos_PI2, sin_PI2; ring. }
  assert (H2 : vrot2 Z X (PI / 2) = Vec.opp Y).
  { by_components; rewrite cos_PI2, sin_PI2; ring. }
  rewrite H1, H2; repeat split; apply Y_neq_opp_Y.
Qed.

(** C1, amended: the direct form [cos·v + sin·(a × v) + (1 − cos)·(a·v)·a]
    of [axis_angle_rotation] and the rearranged form with the same order of
    the cross product, [sin·(a × v) + cos·(v − (a·v)·a) + (a·v)·a], are the
    same vector for every axis, angle and vector; so are the notebook's
    checked pair [vrot1] and [vrot2], both written with [v × a]. *)
Theorem rodrigues_forms_agree (a v : vec3) (theta : R) :
  axis_angle_rotation v a theta
  = (sin theta .* (a × v) + cos theta .* (v - (a ∙ v) .* a) + (a ∙ v) .* a)%vec
  /\ vrot1 a v theta = vrot2 a v theta.
Proof.
  split; [by_components; ring | apply vrot1_vrot2].
Qed.

(** ** Right-handedness *)

(** C2: the rotation of [axis_angle_rotation] is right-handed: a quarter
    turn about [Z] sends [X] to [Y] and [Y] to [-X], and every rotation
    about [Z] leaves [Z] in place. *)
Theorem axis_angle_rotation_right_handed :
  axis_angle_rotation X Z (PI / 2) = Y /\
  axis_angle_rotation X Z (PI / 2) <> Vec.opp Y /\
  axis_angle_rotation Y Z (PI / 2) = Vec.opp X /\
  forall theta : R, axis_angle_rotation Z Z theta = Z.
Proof.
  assert (HX : axis_angle_rotation X Z (PI / 2) = Y).
  { by_components; rewrite cos_PI2, sin_PI2; ring. }
  split; [exact HX|]. split; [rewrite HX; exact Y_neq_opp_Y|].
  split; [|intros theta]; by_components; rewrite ?cos_PI2, ?sin_PI2; ring.
Qed.

(** ** Sense of the checked formulas *)

(** C8: the checked formula [vrot1], and with it [vrot2], is
    [axis_angle_rotation] at the opposite angle. *)
Theorem vrot1_is_opposite_rotation (a v : vec3) (theta : R) :
  vrot1 a v theta = axis_angle_rotation v a (- theta) /\
  vrot2 a v theta = axis_angle_rotation v a (- theta).
Proof.
  split; by_components; rewrite cos_neg, sin_neg; ring.
Qed.

(** ** Linearity *)

(** C10: [axis_angle_rotation] is linear in the rotated vector. *)
Theorem axis_angle_rotation_linear (a u w : vec3) (theta alpha beta : R) :
  axis_angle_rotation (alpha .* u + beta .* w)%vec a theta
  = (alpha .* axis_angle_rotation u a theta
     + beta .* axis_angle_rotation w a theta)%vec.
Proof. by_components; ring. Qed.

(** The matrix form represents the same map as the function. *)
Lemma rotation_matrix_apply (a v : vec3) (theta : R) :
  Mat.mul3v (rotation_matrix a theta) v = axis_angle_rotation v a theta.
Proof. by_components; ring. Qed.

(** ** Homogeneous transforms on augmented vectors *)

(** C4: [make_mat4 U t] sends [[x,1]] to [[U·x + t, 1]] and [[x,0]] to
    [[U·x, 0]]; the trailing component of any augmented vector is kept. *)
Theorem make_mat4_mul_augmented (U : mat3) (t x : vec3) :
  Mat.mul4v (make_mat4 U t) (Mat.augment x 1)
  = Mat.augment (Mat.mul3v U x + t)%vec 1 /\
  Mat.mul4v (make_mat4 U t) (Mat.augment x 0)
  = Mat.augment (Mat.mul3v U x) 0 /\
  forall p : vec4, h3 (Mat.mul4v (make_mat4 U t) p) = h3 p.
Proof.
  repeat split; try intros p; try by_components; unfold_algebra; ring.
Qed.

(** ** Rotations about a unit axis *)

(** C5: for a unit axis the matrix of the rotation, whose columns are
    [axis_angle_rotation] applied to [X], [Y] and [Z], is orthogonal and has
    determinant one. *)
Theorem axis_angle_rotation_orthogonal_det (a : vec3) (theta : R) :
  a ∙ a = 1 ->
  let Rot := Mat.of_columns (axis_angle_rotation X a theta)
                            (axis_angle_rotation Y a theta)
                            (axis_angle_rotation Z a theta) in
  Mat.mul3 (Mat.transpose Rot) Rot = Mat.eye3 /\ Mat.det Rot = 1.
Proof.
  intros Ha Rot. subst Rot. pose proof (sin2_cos2 theta) as Hcs.
  unfold Rsqr in Hcs. revert Ha Hcs. destruct a as [a0 a1 a2].
  unfold_algebra.
  generalize (cos theta) (sin theta); intros c s Ha Hcs.
  split; [apply mat3_eq; unfold_algebra|]; nsatz.
Qed.

Lemma axis_angle_rotation_orthogonal_det_witness :
  Z ∙ Z = 1 /\
  let Rot := Mat.of_columns (axis_angle_rotation X Z (PI / 2))
                            (axis_angle_rotation Y Z (PI / 2))
                            (axis_angle_rotation Z Z (PI / 2)) in
  Mat.mul3 (Mat.transpose Rot) Rot = Mat.eye3 /\ Mat.det Rot = 1.
Proof.
  split; [unfold_algebra; ring|].
  apply (axis_angle_rotation_orthogonal_det Z (PI / 2)); unfold_algebra; ring.
Defined.

(** The same for the matrix form used by the rotation axes of a stack. *)
Lemma rotation_matrix_orthogonal (a : vec3) (theta : R) :
  a ∙ a = 1 ->
  Mat.mul3 (Mat.transpose (rotation_matrix a theta)) (rotation_matrix a theta)
  = Mat.eye3.
Proof.
  intros Ha. pose proof (sin2_cos2 theta) as Hcs.
  unfold Rsqr in Hcs. revert Ha Hcs. destruct a as [a0 a1 a2].
  unfold_algebra.
  generalize (cos theta) (sin theta); intros c s Ha Hcs.
  apply mat3_eq; unfold_algebra; nsatz.
Qed.

(** C9: two rotations about a common unit axis compose to the rotation by
    the sum of the angles. *)
Theorem axis_angle_rotation_add (a v : vec3) (theta phi : R) :
  a ∙ a = 1 ->
  axis_angle_rotation (axis_angle_rotation v a phi) a theta
  = axis_angle_rotation v a (theta + phi).
Proof.
  intros Ha. destruct a as [a0 a1 a2], v as [v0 v1 v2].
  revert Ha. unfold_algebra. rewrite cos_plus, sin_plus.
  generalize (cos theta) (sin theta) (cos phi) (sin phi).
  intros ct st cp sp Ha.
  apply vec3_eq; unfold_algebra; nsatz.
Qed.

Lemma axis_angle_rotation_add_witness :
  Z ∙ Z = 1 /\
  axis_angle_rotation (axis_angle_rotation X Z (PI / 2)) Z (PI / 2)
  = axis_angle_rotation X Z (PI / 2 + PI / 2).
Proof.
  split; [unfold_algebra; ring|].
  apply (axis_angle_rotation_add Z X (PI / 2) (PI / 2)); unfold_algebra; ring.
Defined.

(** ** The axis is used as given *)

(** C3, as stated, fails: [axis_angle_rotation] does not normalise its axis.
    With the axis [2·Z] in place of [Z] a quarter turn sends [X] to [2·Y]
    and not to [Y]; with the zero axis it returns a vector, here the zero
    vector, and no error. *)
Lemma axis_angle_rotation_not_normalised :
  0 < 2 /\
  axis_angle_rotation X (2 .* Z)%vec (PI / 2) = (2 .* Y)%vec /\
  axis_angle_rotation X Z (PI / 2) = Y /\
  axis_angle_rotation X (2 .* Z)%vec (PI / 2) <> axis_angle_rotation X Z (PI / 2) /\
  axis_angle_rotation X Vec.zero (PI / 2) = Vec.zero.
Proof.
  assert (H1 : axis_angle_rotation X (2 .* Z)%vec (PI / 2) = (2 .* Y)%vec).
  { by_components; rewrite cos_PI2, sin_PI2; ring. }
  assert (H2 : axis_angle_rotation X Z (PI / 2) = Y).
  { by_components; rewrite cos_PI2, sin_PI2; ring. }
  assert (H3 : axis_angle_rotation X Vec.zero (PI / 2) = Vec.zero).
  { by_components; rewrite cos_PI2, sin_PI2; ring. }
  rewrite H1, H2, H3; repeat split; try lra.
  intros H; apply (f_equal c1) in H; revert H; unfold_algebra; lra.
Qed.

(** C3, amended: [axis_angle_rotation] applies the formula to the axis as it
    is given, for every axis, and returns a vector.  On the scaled axis
    [c·a] the sine term is scaled by [c] and the parallel term by [c²], so
    the result is that for [a] when [c = 1]; on the zero axis the result is
    [cos(θ)·v]. *)
Theorem axis_angle_rotation_scaled_axis (a v : vec3) (theta c : R) :
  axis_angle_rotation v (c .* a)%vec theta
  = (cos theta .* v + (c * sin theta) .* (a × v)
     + (c * c * (1 - cos theta) * (a ∙ v)) .* a)%vec /\
  axis_angle_rotation v (1 .* a)%vec theta = axis_angle_rotation v a theta /\
  axis_angle_rotation v Vec.zero theta = (cos theta .* v)%vec.
Proof.
  repeat split; by_components; ring.
Qed.

(** ** Positioner stacks *)










(** C6: the stack of the single translation [ffdtx1] (axis [1,0,0],
    [pos : 20.0]), evaluated with no motor value supplied, takes its default
    and sends the position [0,0,0,1] to [20,0,0,1]. *)
Theorem single_translation_default :
  resolve_motor_value ∅ ffdtx1 = ok 20 /\
  apply_stack [ffdtx1] ∅ (V4 0 0 0 1) = ok (V4 20 0 0 1).
Proof.
  assert (Hdefault : resolve_motor_value ∅ ffdtx1 = ok 20) by reflexivity.
  split; [exact Hdefault|].
  unfold apply_stack, compose_stack. simpl. rewrite Hdefault. simpl.
  unfold ok. f_equal. apply vec4_eq;
    cbv [Mat.mul4 Mat.mul4v Mat.eye4 Mat.col0 Mat.col1 Mat.col2 Mat.col3];
    unfold_algebra; ring.
Qed.


(** The detector mount of [fable.yml] with no motor value supplied:
    [ffdtx1] has a default, [ffdtz1] has none and is the axis named. *)
Example FF_Detector_Mount_missing :
  compose_stack FF_Detector_Mount ∅ = fail (MissingMotorValue "ffdtz1").
Proof. reflexivity. Qed.





(** ** Further properties of [axis_angle_rotation] *)

(** The unit circle in the two symbols [cos angle] and [sin angle]. *)
Lemma cos_sin_unit (angle : R) : cos angle * cos angle + sin angle * sin angle = 1.
Proof. pose proof (sin2_cos2 angle) as H. unfold Rsqr in H. lra. Qed.

(** A rotation by the angle zero returns the vector, whatever the axis is;
    so does the checked formula [vrot1]. *)
Theorem axis_angle_rotation_zero_angle (v a : vec3) :
  axis_angle_rotation v a 0 = v /\ vrot1 a v 0 = v.
Proof.
  split; by_components; rewrite cos_0, sin_0; ring.
Qed.

(** The output of cell 16: about [X], [Y] and [Z] the formula is the
    coordinate rotation of the other two components. *)
Theorem axis_angle_rotation_coordinate_axes (v : vec3) (Omega : R) :
  axis_angle_rotation v X Omega
  = V3 (c0 v)
       (c1 v * cos Omega - c2 v * sin Omega)
       (c1 v * sin Omega + c2 v * cos Omega) /\
  axis_angle_rotation v Y Omega
  = V3 (c0 v * cos Omega + c2 v * sin Omega)
       (c1 v)
       (- c0 v * sin Omega + c2 v * cos Omega) /\
  axis_angle_rotation v Z Omega
  = V3 (c0 v * cos Omega - c1 v * sin Omega)
       (c0 v * sin Omega + c1 v * cos Omega)
       (c2 v).
Proof.
  repeat split; by_components; ring.
Qed.

(** About a unit axis the rotation leaves the axis in place and keeps the
    component of every vector along the axis. *)
Theorem axis_angle_rotation_axis_fixed (a v : vec3) (theta : R) :
  a ∙ a = 1 ->
  axis_angle_rotation a a theta = a /\
  a ∙ axis_angle_rotation v a theta = a ∙ v.
Proof.
  intros Ha. destruct a as [a0 a1 a2], v as [v0 v1 v2].
  revert Ha. unfold_algebra. generalize (cos theta) (sin theta).
  intros c s Ha. split; [apply vec3_eq; unfold_algebra|]; nsatz.
Qed.

Lemma axis_angle_rotation_axis_fixed_witness :
  Y ∙ Y = 1 /\
  axis_angle_rotation Y Y (PI / 2) = Y /\
  Y ∙ axis_angle_rotation X Y (PI / 2) = Y ∙ X.
Proof.
  split; [unfold_algebra; ring|].
  apply (axis_angle_rotation_axis_fixed Y X (PI / 2)); unfold_algebra; ring.
Defined.

(** The image of the axis itself is the axis scaled by
    [cos θ + (1 − cos θ)·(a·a)], for every axis. *)
Lemma axis_angle_rotation_axis_image (a : vec3) (theta : R) :
  axis_angle_rotation a a theta
  = ((cos theta + (1 - cos theta) * (a ∙ a)) .* a)%vec.
Proof. by_components; ring. Qed.

Lemma scale_fixes (k : R) (a : vec3) :
  (k .* a)%vec = a <-> (a = Vec.zero \/ k = 1).
Proof.
  destruct a as [a0 a1 a2]. split.
  - intros H.
    pose proof (f_equal c0 H) as H0. pose proof (f_equal c1 H) as H1.
    pose proof (f_equal c2 H) as H2. simpl in H0, H1, H2.
    destruct (Req_dec k 1) as [Hk | Hk]; [now right | left].
    assert (a0 = 0) by nra. assert (a1 = 0) by nra. assert (a2 = 0) by nra.
    now subst.
  - intros [H | ->].
    + rewrite H. by_components; ring.
    + by_components; ring.
Qed.

(** The axis is left in place exactly when it is the zero vector, the angle
    has cosine one, or the axis has unit length: the formula does not
    normalise, so an axis of another length is stretched. *)
Theorem axis_angle_rotation_axis_fixed_iff (a : vec3) (theta : R) :
  axis_angle_rotation a a theta = a
  <-> (a = Vec.zero \/ cos theta = 1 \/ a ∙ a = 1).
Proof.
  rewrite axis_angle_rotation_axis_image, scale_fixes.
  split.
  - intros [H | H]; [now left | right].
    destruct (Req_dec (cos theta) 1) as [Hc | Hc]; [now left | right].
    nra.
  - intros [H | [H | H]]; [now left | right; rewrite H; ring | right; rewrite H; ring].
Qed.

(** About a unit axis the rotation keeps the dot product of two vectors,
    hence lengths and angles. *)
Theorem axis_angle_rotation_dot (a u w : vec3) (theta : R) :
  a ∙ a = 1 ->
  axis_angle_rotation u a theta ∙ axis_angle_rotation w a theta = u ∙ w.
Proof.
  intros Ha. pose proof (cos_sin_unit theta) as Hcs.
  destruct a as [a0 a1 a2], u as [u0 u1 u2], w as [w0 w1 w2].
  revert Ha Hcs. unfold_algebra. generalize (cos theta) (sin theta).
  intros c s Ha Hcs. nsatz.
Qed.

Lemma axis_angle_rotation_dot_witness :
  Z ∙ Z = 1 /\
  axis_angle_rotation X Z (PI / 2) ∙ axis_angle_rotation Y Z (PI / 2) = X ∙ Y.
Proof.
  split; [unfold_algebra; ring|].
  apply (axis_angle_rotation_dot Z X Y (PI / 2)); unfold_algebra; ring.
Defined.

(** About a unit axis the rotation by the opposite angle undoes the
    rotation, and so does the checked formula [vrot1] at the same angle. *)
Theorem axis_angle_rotation_inverse (a v : vec3) (theta : R) :
  a ∙ a = 1 ->
  axis_angle_rotation (axis_angle_rotation v a theta) a (- theta) = v /\
  vrot1 a (axis_angle_rotation v a theta) theta = v.
Proof.
  intros Ha. pose proof (cos_sin_unit theta) as Hcs.
  destruct a as [a0 a1 a2], v as [v0 v1 v2].
  revert Ha Hcs. unfold_algebra. rewrite cos_neg, sin_neg.
  generalize (cos theta) (sin theta). intros c s Ha Hcs.
  split; apply vec3_eq; unfold_algebra; nsatz.
Qed.

Lemma axis_angle_rotation_inverse_witness :
  Z ∙ Z = 1 /\
  axis_angle_rotation (axis_angle_rotation X Z (PI / 2)) Z (- (PI / 2)) = X /\
  vrot1 Z (axis_angle_rotation X Z (PI / 2)) (PI / 2) = X.
Proof.
  split; [unfold_algebra; ring|].
  apply (axis_angle_rotation_inverse Z X (PI / 2)); unfold_algebra; ring.
Defined.

(** Reversing the axis is the same as reversing the angle, for every axis. *)
Theorem axis_angle_rotation_opp_axis (a v : vec3) (theta : R) :
  axis_angle_rotation v (Vec.opp a) theta = axis_angle_rotation v a (- theta).
Proof.
  by_components; rewrite cos_neg, sin_neg; ring.
Qed.

(** A full turn more gives the same vector. *)
Theorem axis_angle_rotation_period (a v : vec3) (theta : R) :
  axis_angle_rotation v a (theta + 2 * PI) = axis_angle_rotation v a theta.
Proof.
  by_components; rewrite cos_plus, sin_plus, cos_2PI, sin_2PI; ring.
Qed.

(** About a unit axis the rotation commutes with the cross product: it
    keeps the orientation. *)
Theorem axis_angle_rotation_cross (a u w : vec3) (theta : R) :
  a ∙ a = 1 ->
  (axis_angle_rotation u a theta × axis_angle_rotation w a theta)%vec
  = axis_angle_rotation (u × w)%vec a theta.
Proof.
  intros Ha. pose proof (cos_sin_unit theta) as Hcs.
  destruct a as [a0 a1 a2], u as [u0 u1 u2], w as [w0 w1 w2].
  revert Ha Hcs. unfold_algebra. generalize (cos theta) (sin theta).
  intros c s Ha Hcs.
  apply vec3_eq; unfold_algebra; nsatz.
Qed.

Lemma axis_angle_rotation_cross_witness :
  Z ∙ Z = 1 /\
  (axis_angle_rotation X Z (PI / 2) × axis_angle_rotation Y Z (PI / 2))%vec
  = axis_angle_rotation (X × Y)%vec Z (PI / 2).
Proof.
  split; [unfold_algebra; ring|].
  apply (axis_angle_rotation_cross Z X Y (PI / 2)); unfold_algebra; ring.
Defined.

(** ** Products of homogeneous transforms *)

Lemma mat4_eq (A B : mat4) :
  row0 A = row0 B -> row1 A = row1 B -> row2 A = row2 B -> row3 A = row3 B ->
  A = B.
Proof. destruct A, B; simpl; intros -> -> -> ->; reflexivity. Qed.

(** Reduce an equation between 4x4 matrices to its sixteen entries. *)
Ltac by_entries :=
  apply mat4_eq; apply vec4_eq;
  cbv [Mat.mul4 Mat.eye4 Mat.col0 Mat.col1 Mat.col2 Mat.col3];
  unfold_algebra.

(** The product of two transforms built by [make_mat4] is again of that
    form: the linear parts multiply, and the translation of the right factor
    is carried through the linear part of the left one. *)
Theorem make_mat4_mul (U1 U2 : mat3) (t1 t2 : vec3) :
  Mat.mul4 (make_mat4 U1 t1) (make_mat4 U2 t2)
  = make_mat4 (Mat.mul3 U1 U2) (Mat.mul3v U1 t2 + t1)%vec.
Proof. by_entries; ring. Qed.

(** Applying a product of two such transforms to an augmented vector is
    applying the right factor first and the left factor to its result. *)
Lemma make_mat4_mul_apply (U1 U2 : mat3) (t1 t2 : vec3) (p : vec4) :
  Mat.mul4v (Mat.mul4 (make_mat4 U1 t1) (make_mat4 U2 t2)) p
  = Mat.mul4v (make_mat4 U1 t1) (Mat.mul4v (make_mat4 U2 t2) p).
Proof.
  apply vec4_eq;
    cbv [Mat.mul4 Mat.col0 Mat.col1 Mat.col2 Mat.col3]; unfold_algebra; ring.
Qed.

(** The order of a translation and a linear part matters: translating
    after the linear map keeps the translation [t], translating before it
    turns the translation into [U·t]; the two products are the same matrix
    exactly when [U·t = t]. *)
Theorem make_mat4_order (U : mat3) (t : vec3) :
  Mat.mul4 (make_mat4 Mat.eye3 t) (make_mat4 U Vec.zero) = make_mat4 U t /\
  Mat.mul4 (make_mat4 U Vec.zero) (make_mat4 Mat.eye3 t)
  = make_mat4 U (Mat.mul3v U t) /\
  (Mat.mul4 (make_mat4 Mat.eye3 t) (make_mat4 U Vec.zero)
   = Mat.mul4 (make_mat4 U Vec.zero) (make_mat4 Mat.eye3 t)
   <-> Mat.mul3v U t = t).
Proof.
  assert (H1 : Mat.mul4 (make_mat4 Mat.eye3 t) (make_mat4 U Vec.zero)
               = make_mat4 U t).
  { destruct U, t. by_entries; ring. }
  assert (H2 : Mat.mul4 (make_mat4 U Vec.zero) (make_mat4 Mat.eye3 t)
               = make_mat4 U (Mat.mul3v U t)).
  { destruct U, t. by_entries; ring. }
  split; [exact H1|]. split; [exact H2|].
  rewrite H1, H2. split.
  - intros H.
    pose proof (f_equal (fun M => h3 (row0 M)) H) as E0.
    pose proof (f_equal (fun M => h3 (row1 M)) H) as E1.
    pose proof (f_equal (fun M => h3 (row2 M)) H) as E2.
    simpl in E0, E1, E2. symmetry. now apply vec3_eq.
  - intros ->. reflexivity.
Qed.

(** The transform of a linear part with [Uᵀ·U = I] is undone by the
    transform with linear part [Uᵀ] and translation [−Uᵀ·t]. *)
Theorem make_mat4_inverse (U : mat3) (t : vec3) (p : vec4) :
  Mat.mul3 (Mat.transpose U) U = Mat.eye3 ->
  Mat.mul4v (make_mat4 (Mat.transpose U)
                       (Vec.opp (Mat.mul3v (Mat.transpose U) t)))
            (Mat.mul4v (make_mat4 U t) p) = p.
Proof.
  intros H. destruct U as [a b c d e f g h i], t as [t0 t1 t2], p as [x y z w].
  pose proof (f_equal u00 H) as E00. pose proof (f_equal u01 H) as E01.
  pose proof (f_equal u02 H) as E02. pose proof (f_equal u10 H) as E10.
  pose proof (f_equal u11 H) as E11. pose proof (f_equal u12 H) as E12.
  pose proof (f_equal u20 H) as E20. pose proof (f_equal u21 H) as E21.
  pose proof (f_equal u22 H) as E22. clear H.
  revert E00 E01 E02 E10 E11 E12 E20 E21 E22. unfold_algebra. intros.
  apply vec4_eq; unfold_algebra; nsatz.
Qed.

Lemma make_mat4_inverse_witness :
  let U := M3 0 (-1) 0  1 0 0  0 0 1 in
  Mat.mul3 (Mat.transpose U) U = Mat.eye3 /\
  Mat.mul4v (make_mat4 (Mat.transpose U)
                       (Vec.opp (Mat.mul3v (Mat.transpose U) X)))
            (Mat.mul4v (make_mat4 U X) (V4 1 2 3 1)) = V4 1 2 3 1.
Proof.
  intros U.
  assert (H : Mat.mul3 (Mat.transpose U) U = Mat.eye3).
  { subst U. by_components; ring. }
  split; [exact H|].
  exact (make_mat4_inverse U X (V4 1 2 3 1) H).
Defined.
